(** * VTIL-SymEx: the directive translator and the transform driver

    A shallow embedding of [VTIL-SymEx/directives/transformer.cpp]:
    [translate] turns a directive tree into an expression under a symbol
    table, either for real or speculatively, and [transform] drives the
    matcher, the translator and an optional filter. *)

From stdpp Require Import base option list strings gmap.
From Stdlib Require Import ZArith Lia.

Local Open Scope Z_scope.

(** ** Operators *)

(** [bitcnt_t] is a signed machine integer in the source; only its role as
    a width is used here. *)
Definition bitcnt_t := Z.

(** The tags of [directive_op_desc] that the [switch] of [translate]
    names, and [unhandled] for every other tag (the [default] label). *)
Module directive_op_desc.
Inductive t :=
| simplify | try_simplify | or_also | iff
| mask_unknown | mask_one | mask_zero
| unreachable | warning
| unhandled (tag : N).
End directive_op_desc.

(** [math::operator_id]. The identifiers below [operator_id::max] are the
    expression operators: [invalid] (a leaf), the two casts, and every
    other arithmetic operator. The identifiers from [max] on are the
    directive operators, read through [directive_op_desc]. *)
Module operator_id.
Inductive t :=
| invalid
| ucast
| cast
| arithmetic (code : N)
| directive (d : directive_op_desc.t).

(** [op < math::operator_id::max] *)
Definition below_max (op : t) : bool :=
  match op with directive _ => false | _ => true end.

(** [op == ucast || op == cast] *)
Definition is_cast (op : t) : bool :=
  match op with ucast | cast => true | _ => false end.

(** [op == cast], the signedness handed to [resize] *)
Definition is_signed_cast (op : t) : bool :=
  match op with cast => true | _ => false end.
End operator_id.

(** ** Directives *)

(** [directive::instance]: operator, optional variable name, the value
    read by [get()], and the two nullable children. *)
Module directive.
#[warnings="-register-all"]
Inductive instance :=
  Instance {
    op : operator_id.t;
    id : option string;
    get : option Z;
    lhs : option instance;
    rhs : option instance
  }.
End directive.

(** ** Expressions *)

(** Modelled from the spec: the expression class is not part of the
    translated sources. An expression is built by exactly the four
    constructions the translator uses: [expression{ value, bit_cnt }],
    [expression{ { name }, bit_cnt }], [expression::make( op, rhs )] and
    [expression::make( lhs, op, rhs )]. *)
Inductive expression :=
| constant (value : Z) (bit_count : bitcnt_t)
| variable (uid : string) (bit_count : bitcnt_t)
| make_unary (op : operator_id.t) (rhs : expression)
| make_binary (lhs : expression) (op : operator_id.t) (rhs : expression).

(** [expression::reference]: a nullable reference; [None] is the null
    reference written [{}] in the source. *)
Definition reference := option expression.

(** The symbol table of one match: pattern-variable name to expression. *)
Abbreviation symbol_table_t := (gmap string expression).

(** [expression_filter_t]: an optional acceptance predicate. *)
Definition expression_filter_t := option (expression -> bool).

(** ** Outcomes *)

(** Modelled from the spec: [unreachable()], [error(...)] and [fassert]
    are declared outside the translated file; reaching [unreachable()] or
    [error(...)], or failing an [fassert], is fatal. A call therefore either
    returns its value or does not return at all. Dereferencing a null
    reference and [std::optional::value()] on an empty optional do not
    return either. *)
Inductive outcome (A : Type) :=
| Returns (a : A)
| Aborts.
Arguments Returns {A} a.
Arguments Aborts {A}.

#[global] Instance outcome_ret : MRet outcome := fun A a => Returns a.
#[global] Instance outcome_bind : MBind outcome :=
  fun A B f m => match m with Returns a => f a | Aborts => Aborts end.

(** [succeeds o]: the call returned a non-null reference. *)
Definition succeeds (o : outcome reference) : bool :=
  match o with Returns (Some _) => true | _ => false end.

(** ** External collaborators *)

(** The primitives of the expression class, the simplifier and the
    matcher, none of which is defined in the translated file. They are
    taken as parameters; every theorem below holds for all of them. *)
Module ext.
Record t := {
  (** [exp->size()] *)
  size : expression -> bitcnt_t;
  (** [exp->unknown_mask()], [exp->known_one()], [exp->known_zero()] *)
  unknown_mask : expression -> Z;
  known_one : expression -> Z;
  known_zero : expression -> Z;
  (** [exp->get()]: the value, when every bit is known *)
  get : expression -> option Z;
  (** [exp->get<bitcnt_t>()] *)
  get_bitcnt : expression -> option bitcnt_t;
  (** [exp->simplify_hint] *)
  simplify_hint : expression -> bool;
  (** [( +exp )->resize( new_size, signed_cast )], on an owned copy *)
  resize : expression -> bitcnt_t -> bool -> expression;
  (** [( +exp )->simplify()] *)
  simplify : expression -> expression;
  (** [simplify_expression( exp )]: the verdict and the expression the
      reference holds afterwards *)
  simplify_expression : expression -> bool * expression;
  (** [fast_match( &results, from, exp )]: the verdict and the candidate
      symbol tables, in order *)
  fast_match : directive.instance -> expression -> bool * list symbol_table_t
}.
End ext.

(** ** The translator *)

(** The dummy expression that signals a speculative success. *)
Definition dummy_expression : expression := variable "@dummmy" 1.

(** Modelled from the spec: [symbol_table_t::translate] is declared
    outside the translated file. It returns the binding of the variable; an
    unbound variable is a fatal error. *)
Definition sym_translate (sym : symbol_table_t) (name : string) : outcome reference :=
  match sym !! name with
  | Some e => Returns (Some e)
  | None => Aborts
  end.

(** [opt.value()] *)
Definition optional_value {A : Type} (o : option A) : outcome A :=
  match o with Some a => Returns a | None => Aborts end.

Section translator.
Variable P : ext.t.

Fixpoint translate (sym : symbol_table_t) (dir : directive.instance)
    (bit_cnt : bitcnt_t) (speculative_condition : bool) {struct dir}
    : outcome reference :=
  match dir with
  | directive.Instance op id value dir_lhs dir_rhs =>
    (* [translate( sym, c, bit_cnt, flag )]: the callee reads [dir->op] at once,
       so a null child does not return *)
    let child (c : option directive.instance) (flag : bool) : outcome reference :=
      match c with
      | Some d => translate sym d bit_cnt flag
      | None => Aborts
      end in
    if operator_id.below_max op then
      match op with
      | operator_id.invalid =>
        match id with
        | None => v ← optional_value value; Returns (Some (constant v bit_cnt))
        | Some name => sym_translate sym name
        end
      | _ =>
        if speculative_condition then
          let probe_rhs : outcome reference :=
            r ← child dir_rhs true;
            match r with
            | None => Returns None
            | Some _ => Returns (Some dummy_expression)
            end in
          match dir_lhs with
          | Some _ =>
            l ← child dir_lhs true;
            match l with
            | None => Returns None
            | Some _ => probe_rhs
            end
          | None => probe_rhs
          end
        else if operator_id.is_cast op then
          l ← child dir_lhs speculative_condition;
          match l with
          | None => Returns None
          | Some lhs =>
            r ← child dir_rhs speculative_condition;
            match r with
            | None => Returns None
            | Some rhs =>
              match ext.get_bitcnt P rhs with
              | Some sz => Returns (Some (ext.resize P lhs sz (operator_id.is_signed_cast op)))
              | None => Aborts
              end
            end
          end
        else
          match dir_lhs with
          | Some _ =>
            l ← child dir_lhs speculative_condition;
            match l with
            | None => Returns None
            | Some lhs =>
              r ← child dir_rhs speculative_condition;
              match r with
              | None => Returns None
              | Some rhs => Returns (Some (make_binary lhs op rhs))
              end
            end
          | None =>
            r ← child dir_rhs speculative_condition;
            match r with
            | None => Returns None
            | Some rhs => Returns (Some (make_unary op rhs))
            end
          end
      end
    else
      match op with
      | operator_id.directive directive_op_desc.simplify =>
        r ← child dir_rhs false;
        match r with
        | Some e1 =>
          if negb (ext.simplify_hint P e1) && (ext.simplify_expression P e1).1
          then Returns (Some (ext.simplify_expression P e1).2)
          else Returns None
        | None => Returns None
        end
      | operator_id.directive directive_op_desc.try_simplify =>
        r ← child dir_rhs speculative_condition;
        match r with
        | Some e1 =>
          if negb speculative_condition
          then Returns (Some (ext.simplify_expression P e1).2)
          else Returns (Some e1)
        | None => Returns None
        end
      | operator_id.directive directive_op_desc.or_also =>
        r1 ← child dir_lhs speculative_condition;
        match r1 with
        | Some e1 => Returns (Some e1)
        | None =>
          r2 ← child dir_rhs speculative_condition;
          match r2 with
          | Some e2 => Returns (Some e2)
          | None => Returns None
          end
        end
      | operator_id.directive directive_op_desc.iff =>
        condition_status ← child dir_lhs false;
        match condition_status with
        | None => Returns None
        | Some c =>
          match ext.get P (ext.simplify P c) with
          | Some v =>
            if v =? 0 then Returns None
            else child dir_rhs speculative_condition
          | None => Returns None
          end
        end
      | operator_id.directive directive_op_desc.mask_unknown =>
        r ← child dir_rhs speculative_condition;
        match r with
        | Some exp => Returns (Some (constant (ext.unknown_mask P exp) (ext.size P exp)))
        | None => Returns None
        end
      | operator_id.directive directive_op_desc.mask_one =>
        r ← child dir_rhs speculative_condition;
        match r with
        | Some exp => Returns (Some (constant (ext.known_one P exp) (ext.size P exp)))
        | None => Returns None
        end
      | operator_id.directive directive_op_desc.mask_zero =>
        r ← child dir_rhs speculative_condition;
        match r with
        | Some exp => Returns (Some (constant (ext.known_zero P exp) (ext.size P exp)))
        | None => Returns None
        end
      | operator_id.directive directive_op_desc.unreachable => Aborts
      | operator_id.directive directive_op_desc.warning =>
        child dir_rhs speculative_condition
      | _ => Aborts
      end
  end.
End translator.

(** ** The transform driver *)

Section transformer.
Variable P : ext.t.

(** The loop of [transform] when a filter is provided. *)
Fixpoint transform_filtered (filter : expression -> bool) (to : directive.instance)
    (bit_cnt : bitcnt_t) (results : list symbol_table_t) : outcome reference :=
  match results with
  | [] => Returns None
  | match_ :: rest =>
    r ← translate P match_ to bit_cnt false;
    match r with
    | Some exp_new =>
      if filter exp_new then Returns (Some exp_new)
      else transform_filtered filter to bit_cnt rest
    | None => transform_filtered filter to bit_cnt rest
    end
  end.

(** The loop of [transform] when no filter is provided; a null [exp_new]
    fails the [fassert]. *)
Fixpoint transform_unfiltered (to : directive.instance)
    (bit_cnt : bitcnt_t) (results : list symbol_table_t) : outcome reference :=
  match results with
  | [] => Returns None
  | match_ :: rest =>
    probe ← translate P match_ to bit_cnt true;
    match probe with
    | None => transform_unfiltered to bit_cnt rest
    | Some _ =>
      exp_new ← translate P match_ to bit_cnt false;
      match exp_new with
      | None => Aborts
      | Some e => Returns (Some e)
      end
    end
  end.

Definition transform (exp : expression) (from to : directive.instance)
    (filter : expression_filter_t) : outcome reference :=
  let '(matched, results) := ext.fast_match P from exp in
  if negb matched then Returns None
  else
    match filter with
    | Some f => transform_filtered f to (ext.size P exp) results
    | None => transform_unfiltered to (ext.size P exp) results
    end.
End transformer.

(** ** The dummy expression inside an expression *)

(** [is_dummy e]: [e] is the dummy expression. *)
Definition is_dummy (e : expression) : bool :=
  match e with
  | variable uid bit_count => String.eqb uid "@dummmy" && (bit_count =? 1)
  | _ => false
  end.

(** [contains_dummy e]: [e] or one of its subexpressions is the dummy
    expression. *)
Fixpoint contains_dummy (e : expression) : bool :=
  is_dummy e ||
  match e with
  | make_unary _ rhs => contains_dummy rhs
  | make_binary lhs _ rhs => contains_dummy lhs || contains_dummy rhs
  | _ => false
  end.

(** [dummy_free sym]: no expression bound in [sym] contains the dummy. *)
Definition dummy_free (sym : symbol_table_t) : Prop :=
  forall name e, sym !! name = Some e -> contains_dummy e = false.

(** ** A small instance of the external collaborators *)

(** Modelled from the spec: an instance of the expression primitives, the
    simplifier and the matcher on which the translator can be run. A
    constant knows all its bits, a variable none; operators are not folded.
    The simplifier and the matcher are parameters of the instance. *)
Module model.
Fixpoint size (e : expression) : bitcnt_t :=
  match e with
  | constant _ w | variable _ w => w
  | make_unary _ r => size r
  | make_binary l _ _ => size l
  end.

Definition unknown_mask (e : expression) : Z :=
  match e with
  | constant _ _ => 0
  | _ => Z.ones (size e)
  end.

Definition known_one (e : expression) : Z :=
  match e with
  | constant v w => Z.land v (Z.ones w)
  | _ => 0
  end.

Definition known_zero (e : expression) : Z :=
  match e with
  | constant v w => Z.land (Z.lnot v) (Z.ones w)
  | _ => 0
  end.

Definition get (e : expression) : option Z :=
  match e with
  | constant v _ => Some v
  | _ => None
  end.

Definition resize (e : expression) (new_size : bitcnt_t) (signed_cast : bool) : expression :=
  match e with
  | constant v _ => constant v new_size
  | _ =>
    make_binary e (if signed_cast then operator_id.cast else operator_id.ucast)
      (constant new_size 8)
  end.

Definition api (simplifier : expression -> bool * expression)
    (matcher : directive.instance -> expression -> bool * list symbol_table_t) : ext.t :=
  {| ext.size := size;
     ext.unknown_mask := unknown_mask;
     ext.known_one := known_one;
     ext.known_zero := known_zero;
     ext.get := get;
     ext.get_bitcnt := get;
     ext.simplify_hint := fun _ => false;
     ext.resize := resize;
     ext.simplify := fun e => e;
     ext.simplify_expression := simplifier;
     ext.fast_match := matcher |}.

(** A matcher that binds a pattern made of a single variable to the whole
    expression and matches no other pattern. *)
Definition bind_whole (from : directive.instance) (exp : expression)
    : bool * list symbol_table_t :=
  match from with
  | directive.Instance operator_id.invalid (Some name) _ _ _ => (true, [ {[ name := exp ]} ])
  | _ => (false, [])
  end.

(** A matcher that answers with the given candidates. *)
Definition candidates (results : list symbol_table_t)
    : directive.instance -> expression -> bool * list symbol_table_t :=
  fun _ _ => (match results with [] => false | _ => true end, results).

(** A simplifier that changes nothing and says so. *)
Definition idle : expression -> bool * expression := fun e => (false, e).

(** One arithmetic operator of the instance, read as bitwise complement. *)
Definition bitwise_not : operator_id.t := operator_id.arithmetic 1.

(** A simplifier with the single rule [~~x = x]; it reports every other
    expression as not simplified. *)
Definition double_complement (e : expression) : bool * expression :=
  match e with
  | make_unary (operator_id.arithmetic 1) (make_unary (operator_id.arithmetic 1) r) => (true, r)
  | _ => (false, e)
  end.
End model.

(** Directive builders for the examples. *)
Definition dir_var (name : string) : directive.instance :=
  directive.Instance operator_id.invalid (Some name) None None None.
Definition dir_const (v : Z) : directive.instance :=
  directive.Instance operator_id.invalid None (Some v) None None.
Definition dir_op (op : operator_id.t) (l r : option directive.instance) : directive.instance :=
  directive.Instance op None None l r.
Definition dir_meta (d : directive_op_desc.t) (l r : option directive.instance) : directive.instance :=
  dir_op (operator_id.directive d) l r.

(** Whether the external primitives that hand an expression back to the
    translator keep an expression free of the dummy. *)
Definition keeps_dummy_out (P : ext.t) : Prop :=
  (forall e new_size signed_cast,
      contains_dummy e = false ->
      contains_dummy (ext.resize P e new_size signed_cast) = false) /\
  (forall e,
      contains_dummy e = false ->
      contains_dummy (ext.simplify_expression P e).2 = false).

(** [skipped P to bit_cnt filter c]: the filtered loop of [transform]
    moves on from candidate [c]: the translation fails, or the filter
    rejects its result. *)
Definition skipped (P : ext.t) (to : directive.instance) (bit_cnt : bitcnt_t)
    (filter : expression -> bool) (c : symbol_table_t) : Prop :=
  translate P c to bit_cnt false = Returns None \/
  exists e, translate P c to bit_cnt false = Returns (Some e) /\ filter e = false.

(** ** Example rules and bindings *)

Module examples.
(** The instance with the idle simplifier and the whole-expression matcher. *)
Definition plain : ext.t := model.api model.idle model.bind_whole.

(** [cast( x, w )] *)
Definition cast_x_w : directive.instance :=
  dir_op operator_id.cast (Some (dir_var "x")) (Some (dir_var "w")).

(** [x] is a symbolic 64-bit value and [w] the constant 8. *)
Definition constant_width : symbol_table_t :=
  {[ "x" := variable "a" 64; "w" := constant 8 64 ]}.

(** [x] and [w] are both symbolic. *)
Definition symbolic_width : symbol_table_t :=
  {[ "x" := variable "a" 64; "w" := variable "b" 64 ]}.

(** [__iff( c, x )] *)
Definition guarded_x : directive.instance :=
  dir_meta directive_op_desc.iff (Some (dir_var "c")) (Some (dir_var "x")).

(** [__or( __iff( c, x ), y )] *)
Definition guarded_x_or_y : directive.instance :=
  dir_meta directive_op_desc.or_also (Some guarded_x) (Some (dir_var "y")).

(** Bindings of the condition [c] to false, to true and to a symbol. *)
Definition c_false : symbol_table_t :=
  {[ "c" := constant 0 1; "x" := variable "a" 64; "y" := variable "b" 64 ]}.
Definition c_true : symbol_table_t :=
  {[ "c" := constant 1 1; "x" := variable "a" 64; "y" := variable "b" 64 ]}.
Definition c_true_const : symbol_table_t :=
  {[ "c" := constant 1 1; "x" := constant 5 64; "y" := variable "b" 64 ]}.
Definition c_symbolic : symbol_table_t :=
  {[ "c" := variable "flag" 1; "x" := variable "a" 64; "y" := variable "b" 64 ]}.

(** A filter that accepts variables only. *)
Definition only_variables (e : expression) : bool :=
  match e with variable _ _ => true | _ => false end.

(** [!( ~( ~x ) )]: the sequence-simplify directive over a double complement. *)
Definition simplify_double_complement : directive.instance :=
  dir_meta directive_op_desc.simplify None
    (Some (dir_op model.bitwise_not None
       (Some (dir_op model.bitwise_not None (Some (dir_var "x")))))).
(** Instances whose matcher answers with fixed candidates. *)
Definition three_candidates : ext.t :=
  model.api model.idle (model.candidates [c_false; c_true_const; c_true]).
Definition two_candidates : ext.t :=
  model.api model.idle (model.candidates [c_false; c_true_const]).

(** The instance whose simplifier knows [~~x = x]. *)
Definition complementing : ext.t := model.api model.double_complement model.bind_whole.
End examples.

(** ** What a translation reads *)

(** The pattern variables [translate] can look up in [dir]: the names of
    the leaves it can reach. A leaf is a node whose operator is [invalid];
    its children, if any, are never visited. *)
Fixpoint variables (dir : directive.instance) : gset string :=
  match dir with
  | directive.Instance op id _ dir_lhs dir_rhs =>
    match op with
    | operator_id.invalid =>
      match id with Some name => {[ name ]} | None => ∅ end
    | _ =>
      match dir_lhs with Some l => variables l | None => ∅ end ∪
      match dir_rhs with Some r => variables r | None => ∅ end
    end
  end.

(** [literal_free dir]: no reachable leaf of [dir] is a literal constant,
    the only place where [translate] reads [bit_cnt]. *)
Fixpoint literal_free (dir : directive.instance) : bool :=
  match dir with
  | directive.Instance op id _ dir_lhs dir_rhs =>
    match op with
    | operator_id.invalid =>
      match id with Some _ => true | None => false end
    | _ =>
      match dir_lhs with Some l => literal_free l | None => true end &&
      match dir_rhs with Some r => literal_free r | None => true end
    end
  end.

(** [arithmetic_only dir]: every reachable node of [dir] is a leaf or an
    arithmetic operator other than the casts; no directive operator. *)
Fixpoint arithmetic_only (dir : directive.instance) : bool :=
  match dir with
  | directive.Instance op _ _ dir_lhs dir_rhs =>
    match op with
    | operator_id.invalid => true
    | operator_id.arithmetic _ =>
      match dir_lhs with Some l => arithmetic_only l | None => true end &&
      match dir_rhs with Some r => arithmetic_only r | None => true end
    | _ => false
    end
  end.

(** The instance of an arithmetic template under a symbol table, written
    as a substitution: variables are replaced by their bindings, literals
    become constants of the requested width, operators are rebuilt. It is
    undefined when a variable is unbound, a literal has no value or the
    right operand is missing. *)
Fixpoint instantiate (sym : symbol_table_t) (bit_cnt : bitcnt_t)
    (dir : directive.instance) : option expression :=
  match dir with
  | directive.Instance op id value dir_lhs dir_rhs =>
    match op with
    | operator_id.invalid =>
      match id with
      | Some name => sym !! name
      | None => match value with Some v => Some (constant v bit_cnt) | None => None end
      end
    | operator_id.arithmetic _ =>
      match dir_lhs, dir_rhs with
      | Some l, Some r =>
        match instantiate sym bit_cnt l, instantiate sym bit_cnt r with
        | Some lhs, Some rhs => Some (make_binary lhs op rhs)
        | _, _ => None
        end
      | None, Some r =>
        match instantiate sym bit_cnt r with
        | Some rhs => Some (make_unary op rhs)
        | None => None
        end
      | _, None => None
      end
    | _ => None
    end
  end.

(** [probe_only dir]: no reachable node of [dir] is a sequence-simplify
    or a conditional directive, the two cases of [translate] that call
    themselves with the speculative flag cleared. *)
Fixpoint probe_only (dir : directive.instance) : bool :=
  match dir with
  | directive.Instance op _ _ dir_lhs dir_rhs =>
    match op with
    | operator_id.invalid => true
    | operator_id.directive directive_op_desc.simplify => false
    | operator_id.directive directive_op_desc.iff => false
    | _ =>
      match dir_lhs with Some l => probe_only l | None => true end &&
      match dir_rhs with Some r => probe_only r | None => true end
    end
  end.

(** [__or( a, b )] *)
Definition dir_or (a b : directive.instance) : directive.instance :=
  directive.Instance (operator_id.directive directive_op_desc.or_also)
    None None (Some a) (Some b).

(** ** Proof automation *)

(** Case analysis on both translations of a child directive. *)
Ltac both_modes P sym d w :=
  destruct (translate P sym d w false) as [[?|]|] eqn:?;
  destruct (translate P sym d w true) as [[?|]|] eqn:?.

(** Use an induction hypothesis whose premise is a visible non-abort. *)
Ltac use_non_abort :=
  repeat match goal with
  | H : ?X <> Aborts -> _ |- _ =>
    first [ let Hc := fresh in
            assert (Hc : X <> Aborts) by discriminate;
            specialize (H Hc); destruct H as [? ?]
          | clear H ]
  end.

(** Case analysis on the next translation under [sym] in the goal, moving
    the translation under the other table along when the hypothesis [IH]
    applies. *)
Ltac step_weaken P sym bit_cnt :=
  match goal with
  | |- context [translate P sym ?d bit_cnt ?b] =>
    let H := fresh "Hw" in
    match goal with
    | IH : forall sc, translate P sym d bit_cnt sc <> Aborts -> _ |- _ =>
      pose proof (IH b) as H
    end;
    destruct (translate P sym d bit_cnt b) as [[?|]|];
    [ rewrite H by discriminate | rewrite H by discriminate | clear H ];
    simpl
  end.

(** * Properties *)

(** ** Reasoning tools *)

(** Induction over a directive tree, through its nullable children. *)
Lemma instance_ind' (Q : directive.instance -> Prop) :
  (forall op id value dir_lhs dir_rhs,
      (forall l, dir_lhs = Some l -> Q l) ->
      (forall r, dir_rhs = Some r -> Q r) ->
      Q (directive.Instance op id value dir_lhs dir_rhs)) ->
  forall dir, Q dir.
Proof.
  intros step. fix IH 1. intros [op id value dir_lhs dir_rhs].
  apply step.
  - destruct dir_lhs as [l|]; intros x Hx; [|discriminate].
    injection Hx as <-. apply IH.
  - destruct dir_rhs as [r|]; intros x Hx; [|discriminate].
    injection Hx as <-. apply IH.
Qed.

Lemma is_dummy_spec e : is_dummy e = true <-> e = dummy_expression.
Proof.
  unfold dummy_expression. destruct e as [v w|uid w|op r|l op r]; simpl;
    try (split; [discriminate|intros [=]]).
  rewrite andb_true_iff, String.eqb_eq, Z.eqb_eq.
  split; [intros [-> ->]; reflexivity|intros [= -> ->]; auto].
Qed.

Section consistency.
Variable P : ext.t.
Variable sym : symbol_table_t.
Variable bit_cnt : bitcnt_t.

(** When the committing translation returns, the speculative one returns
    as well and has the same verdict. *)
Lemma translate_modes (dir : directive.instance) :
  translate P sym dir bit_cnt false <> Aborts ->
  translate P sym dir bit_cnt true <> Aborts /\
  succeeds (translate P sym dir bit_cnt true) = succeeds (translate P sym dir bit_cnt false).
Proof.
  induction dir as [op id value dir_lhs dir_rhs IHl IHr] using instance_ind'.
  destruct dir_lhs as [l|], dir_rhs as [r|];
    try specialize (IHl _ eq_refl); try specialize (IHr _ eq_refl).
  all: try both_modes P sym l bit_cnt; try both_modes P sym r bit_cnt.
  all: use_non_abort; simpl in *; try discriminate; try congruence.
  all: destruct op as [| | |code|[]]; simpl.
  all: repeat match goal with H : _ = _ |- _ => rewrite H end.
  all: unfold mbind, outcome_bind, sym_translate, optional_value; simpl.
  all: repeat match goal with
       | |- context [match ?x with _ => _ end] => destruct x eqn:?; simpl
       end.
  all: try (intros; split; congruence).
  all: intros Hc; now contradict Hc.
Qed.

(** After a successful probe the committing translation is never null:
    the [fassert] of [transform] cannot fail. *)
Corollary probe_excludes_null (dir : directive.instance) :
  succeeds (translate P sym dir bit_cnt true) = true ->
  translate P sym dir bit_cnt false <> Returns None.
Proof.
  intros Hprobe Hnull.
  destruct (translate_modes dir) as [_ Hsame]; [rewrite Hnull; discriminate|].
  rewrite Hnull, Hprobe in Hsame. discriminate.
Qed.
End consistency.

(** ** Speculative and committing translation *)

(** C1 (as stated, refuted): for [cast( x, w )] with [w] bound to a
    symbolic expression, the speculative translation succeeds and the
    committing one does not: it reaches [unreachable()]. *)
Lemma translate_modes_disagree_on_cast :
  ~ (succeeds (translate examples.plain examples.symbolic_width examples.cast_x_w 64 true) = true <->
     succeeds (translate examples.plain examples.symbolic_width examples.cast_x_w 64 false) = true).
Proof.
  vm_compute. intros [Hspec _]. specialize (Hspec eq_refl). discriminate.
Qed.

(** C1 (amended): for every directive, symbol table and width on which the
    committing translation returns (does not abort), the speculative
    translation succeeds if and only if the committing one succeeds. *)
Theorem translate_modes_agree_unless_abort (P : ext.t) (sym : symbol_table_t)
    (dir : directive.instance) (bit_cnt : bitcnt_t) :
  translate P sym dir bit_cnt false <> Aborts ->
  (succeeds (translate P sym dir bit_cnt true) = true <->
   succeeds (translate P sym dir bit_cnt false) = true).
Proof.
  intros Hret. destruct (translate_modes P sym bit_cnt dir Hret) as [_ ->].
  reflexivity.
Qed.

Lemma translate_modes_agree_unless_abort_witness :
  translate examples.plain examples.constant_width examples.cast_x_w 64 false <> Aborts /\
  (succeeds (translate examples.plain examples.constant_width examples.cast_x_w 64 true) = true <->
   succeeds (translate examples.plain examples.constant_width examples.cast_x_w 64 false) = true).
Proof.
  split.
  - vm_compute. discriminate.
  - apply translate_modes_agree_unless_abort. vm_compute. discriminate.
Defined.

(** C10: in speculative mode a cast or unsigned cast succeeds as soon as
    its present children speculatively succeed, and returns the dummy
    without reading the width; the width is read only in committing mode.
    So whenever the width operand is bound to an expression without a known
    value, the speculative translation of [cast( x, w )] succeeds and the
    committing one aborts. *)
Theorem speculative_cast_skips_width_check (P : ext.t) :
  (forall sym op id value dir_lhs r bit_cnt,
      operator_id.is_cast op = true ->
      (dir_lhs = None \/
       exists l, dir_lhs = Some l /\ succeeds (translate P sym l bit_cnt true) = true) ->
      succeeds (translate P sym r bit_cnt true) = true ->
      translate P sym (directive.Instance op id value dir_lhs (Some r)) bit_cnt true
      = Returns (Some dummy_expression)) /\
  (forall op x w e_x e_w bit_cnt,
      operator_id.is_cast op = true ->
      x <> w ->
      ext.get_bitcnt P e_w = None ->
      let sym : symbol_table_t := {[ x := e_x; w := e_w ]} in
      let dir := dir_op op (Some (dir_var x)) (Some (dir_var w)) in
      succeeds (translate P sym dir bit_cnt true) = true /\
      translate P sym dir bit_cnt false = Aborts).
Proof.
  split.
  - intros sym op id value dir_lhs r bit_cnt Hop Hl Hr.
    destruct op; try discriminate; simpl.
    all: destruct (translate P sym r bit_cnt true) as [[?|]|]; try discriminate.
    all: destruct Hl as [->|(l & -> & Hl)]; [reflexivity|].
    all: destruct (translate P sym l bit_cnt true) as [[?|]|]; try discriminate.
    all: reflexivity.
  - intros op x w e_x e_w bit_cnt Hop Hxw Hget sym dir.
    assert (Hx : sym !! x = Some e_x) by (subst sym; simplify_map_eq; done).
    assert (Hw : sym !! w = Some e_w) by (subst sym; simplify_map_eq; done).
    destruct op; try discriminate; subst dir; simpl;
      unfold sym_translate; rewrite Hx, Hw; simpl; rewrite Hget; auto.
Qed.

Lemma speculative_cast_skips_width_check_witness :
  translate examples.plain examples.symbolic_width examples.cast_x_w 64 true
  = Returns (Some dummy_expression) /\
  translate examples.plain examples.symbolic_width examples.cast_x_w 64 false = Aborts.
Proof.
  split.
  - apply (proj1 (speculative_cast_skips_width_check examples.plain)).
    + reflexivity.
    + right. exists (dir_var "x"). split; [reflexivity|]. vm_compute. reflexivity.
    + vm_compute. reflexivity.
  - apply (proj2 (speculative_cast_skips_width_check examples.plain)
             operator_id.cast "x"%string "w"%string (variable "a" 64) (variable "b" 64) 64).
    + reflexivity.
    + discriminate.
    + reflexivity.
Defined.

(** ** The directive operators, case by case *)

Section directive_cases.
Variable P : ext.t.
Variable sym : symbol_table_t.
Variable bit_cnt : bitcnt_t.

(** C5: alternation. If [A] translates, the result is [A]'s translation
    (in particular when [B] translates too); if [A] fails and [B]
    translates, the result is [B]'s; if both fail, the alternation fails.
    This holds in both modes. *)
Theorem translate_or_also (id : option string) (value : option Z)
    (A B : directive.instance) (speculative_condition : bool) :
  let dir := directive.Instance (operator_id.directive directive_op_desc.or_also)
               id value (Some A) (Some B) in
  (forall a,
      translate P sym A bit_cnt speculative_condition = Returns (Some a) ->
      translate P sym dir bit_cnt speculative_condition = Returns (Some a)) /\
  (forall b,
      translate P sym A bit_cnt speculative_condition = Returns None ->
      translate P sym B bit_cnt speculative_condition = Returns (Some b) ->
      translate P sym dir bit_cnt speculative_condition = Returns (Some b)) /\
  (translate P sym A bit_cnt speculative_condition = Returns None ->
   translate P sym B bit_cnt speculative_condition = Returns None ->
   translate P sym dir bit_cnt speculative_condition = Returns None).
Proof.
  simpl. repeat split.
  - intros a ->. reflexivity.
  - intros b -> ->. reflexivity.
  - intros -> ->. reflexivity.
Qed.

(** C4: conditional. The condition [C] is translated in committing mode
    whatever the caller's flag, simplified, and read as a constant. If [C]
    fails to translate, or its simplified form has no known value, or that
    value is zero, the translation fails with a null result; if the value
    is known and non-zero, the result is the translation of [R] under the
    caller's flag. *)
Theorem translate_iff (id : option string) (value : option Z)
    (C R : directive.instance) (speculative_condition : bool) :
  let dir := directive.Instance (operator_id.directive directive_op_desc.iff)
               id value (Some C) (Some R) in
  (translate P sym C bit_cnt false = Returns None ->
   translate P sym dir bit_cnt speculative_condition = Returns None) /\
  (forall c,
      translate P sym C bit_cnt false = Returns (Some c) ->
      ext.get P (ext.simplify P c) = None \/ ext.get P (ext.simplify P c) = Some 0 ->
      translate P sym dir bit_cnt speculative_condition = Returns None) /\
  (forall c t,
      translate P sym C bit_cnt false = Returns (Some c) ->
      ext.get P (ext.simplify P c) = Some t ->
      t <> 0 ->
      translate P sym dir bit_cnt speculative_condition
      = translate P sym R bit_cnt speculative_condition).
Proof.
  simpl. repeat split.
  - intros ->. reflexivity.
  - intros c -> [Hget | Hget]; simpl; rewrite Hget; reflexivity.
  - intros c t -> Hget Ht. simpl. rewrite Hget.
    apply Z.eqb_neq in Ht. rewrite Ht. reflexivity.
Qed.

(** C6: sequence-simplify. Whatever the caller's flag, the right child is
    translated in committing mode. A result is returned only if that
    translation succeeded, the translated expression does not carry the
    simplify hint and the simplifier reported success on it, and it is
    then the simplified expression; if the translation fails, or the hint is
    set, or the simplifier reports no success, the result is null. *)
Theorem translate_simplify (id : option string) (value : option Z)
    (dir_lhs : option directive.instance) (R : directive.instance)
    (speculative_condition : bool) :
  let dir := directive.Instance (operator_id.directive directive_op_desc.simplify)
               id value dir_lhs (Some R) in
  (forall e,
      translate P sym dir bit_cnt speculative_condition = Returns (Some e) ->
      exists e1,
        translate P sym R bit_cnt false = Returns (Some e1) /\
        ext.simplify_hint P e1 = false /\
        ext.simplify_expression P e1 = (true, e)) /\
  (forall e1,
      translate P sym R bit_cnt false = Returns (Some e1) ->
      ext.simplify_hint P e1 = false ->
      (ext.simplify_expression P e1).1 = true ->
      translate P sym dir bit_cnt speculative_condition
      = Returns (Some (ext.simplify_expression P e1).2)) /\
  (translate P sym R bit_cnt false = Returns None ->
   translate P sym dir bit_cnt speculative_condition = Returns None) /\
  (forall e1,
      translate P sym R bit_cnt false = Returns (Some e1) ->
      ext.simplify_hint P e1 = true \/ (ext.simplify_expression P e1).1 = false ->
      translate P sym dir bit_cnt speculative_condition = Returns None).
Proof.
  simpl. repeat split.
  - intros e. destruct (translate P sym R bit_cnt false) as [[e1|]|]; simpl; try discriminate.
    destruct (ext.simplify_hint P e1) eqn:Hhint; simpl; try discriminate.
    destruct (ext.simplify_expression P e1) as [ok e'] eqn:Hsimp; simpl.
    destruct ok; intros [= <-]. exists e1. auto.
  - intros e1 -> Hhint Hok. simpl. rewrite Hhint, Hok. reflexivity.
  - intros ->. reflexivity.
  - intros e1 -> [Hhint | Hok]; simpl.
    + rewrite Hhint. reflexivity.
    + rewrite Hok, andb_false_r. reflexivity.
Qed.

(** C7: the mask directives. When the right child translates in committing
    mode to [e], mask-unknown, mask-one and mask-zero return the constant
    holding [e]'s unknown-bit mask, known-one mask and known-zero mask, at
    the width of [e] and not at the requested width; when [e] has no
    unknown bit, mask-unknown returns the constant zero. *)
Theorem translate_masks (id : option string) (value : option Z)
    (dir_lhs : option directive.instance) (R : directive.instance) (e : expression) :
  translate P sym R bit_cnt false = Returns (Some e) ->
  let mask d := directive.Instance (operator_id.directive d) id value dir_lhs (Some R) in
  translate P sym (mask directive_op_desc.mask_unknown) bit_cnt false
  = Returns (Some (constant (ext.unknown_mask P e) (ext.size P e))) /\
  translate P sym (mask directive_op_desc.mask_one) bit_cnt false
  = Returns (Some (constant (ext.known_one P e) (ext.size P e))) /\
  translate P sym (mask directive_op_desc.mask_zero) bit_cnt false
  = Returns (Some (constant (ext.known_zero P e) (ext.size P e))) /\
  (ext.unknown_mask P e = 0 ->
   translate P sym (mask directive_op_desc.mask_unknown) bit_cnt false
   = Returns (Some (constant 0 (ext.size P e)))).
Proof.
  intros HR. simpl. rewrite HR. simpl. repeat split. intros ->. reflexivity.
Qed.

(** C8: the fatal cases. The translation aborts, and does not return a
    null result, on: an assert-unreachable directive; in committing mode, a
    cast or unsigned cast whose two operands translated and whose width
    operand has no known value; a leaf whose variable the symbol table does
    not bind; a directive operator that no case handles. *)
Theorem translate_fatal_cases :
  (forall id value dir_lhs dir_rhs speculative_condition,
      translate P sym
        (directive.Instance (operator_id.directive directive_op_desc.unreachable)
           id value dir_lhs dir_rhs) bit_cnt speculative_condition = Aborts) /\
  (forall op id value l r e_l e_r,
      operator_id.is_cast op = true ->
      translate P sym l bit_cnt false = Returns (Some e_l) ->
      translate P sym r bit_cnt false = Returns (Some e_r) ->
      ext.get_bitcnt P e_r = None ->
      translate P sym (directive.Instance op id value (Some l) (Some r)) bit_cnt false
      = Aborts) /\
  (forall name value dir_lhs dir_rhs speculative_condition,
      sym !! name = None ->
      translate P sym
        (directive.Instance operator_id.invalid (Some name) value dir_lhs dir_rhs)
        bit_cnt speculative_condition = Aborts) /\
  (forall tag id value dir_lhs dir_rhs speculative_condition,
      translate P sym
        (directive.Instance (operator_id.directive (directive_op_desc.unhandled tag))
           id value dir_lhs dir_rhs) bit_cnt speculative_condition = Aborts).
Proof.
  repeat split.
  - intros op id value l r e_l e_r Hop Hl Hr Hget.
    destruct op; try discriminate; simpl; rewrite Hl, Hr; simpl; rewrite Hget; reflexivity.
  - intros name value dir_lhs dir_rhs sc Hname. simpl. unfold sym_translate.
    rewrite Hname. reflexivity.
Qed.
End directive_cases.

(** ** The transform driver *)

Section driver.
Variable P : ext.t.
Variable to : directive.instance.
Variable bit_cnt : bitcnt_t.

(** Candidates whose probe fails are passed over by the unfiltered loop. *)
Lemma transform_unfiltered_app (pre rest : list symbol_table_t) :
  Forall (fun c => translate P c to bit_cnt true = Returns None) pre ->
  transform_unfiltered P to bit_cnt (pre ++ rest) = transform_unfiltered P to bit_cnt rest.
Proof.
  induction 1 as [|c pre Hc _ IH]; simpl; [reflexivity|].
  rewrite Hc. simpl. exact IH.
Qed.

(** Skipped candidates are passed over by the filtered loop. *)
Lemma transform_filtered_app (filter : expression -> bool) (pre rest : list symbol_table_t) :
  Forall (skipped P to bit_cnt filter) pre ->
  transform_filtered P filter to bit_cnt (pre ++ rest)
  = transform_filtered P filter to bit_cnt rest.
Proof.
  induction 1 as [|c pre Hc _ IH]; simpl; [reflexivity|].
  destruct Hc as [Hc | (e & Hc & Hf)]; rewrite Hc; simpl; [|rewrite Hf]; exact IH.
Qed.

(** A value returned by the filtered loop is the accepted translation of
    a candidate all of whose predecessors were skipped. *)
Lemma transform_filtered_value (filter : expression -> bool)
    (results : list symbol_table_t) (e : expression) :
  transform_filtered P filter to bit_cnt results = Returns (Some e) ->
  exists pre m post,
    results = pre ++ m :: post /\
    Forall (skipped P to bit_cnt filter) pre /\
    translate P m to bit_cnt false = Returns (Some e) /\
    filter e = true.
Proof.
  induction results as [|c results IH]; simpl; [discriminate|].
  destruct (translate P c to bit_cnt false) as [[e'|]|] eqn:Hc; simpl; [| |discriminate].
  - destruct (filter e') eqn:Hf.
    + intros [= <-]. exists [], c, results. repeat split; auto.
    + intros Hrest. destruct (IH Hrest) as (pre & m & post & -> & Hpre & Hm & Hacc).
      exists (c :: pre), m, post. repeat split; auto.
      constructor; [right; eauto|exact Hpre].
  - intros Hrest. destruct (IH Hrest) as (pre & m & post & -> & Hpre & Hm & Hacc).
    exists (c :: pre), m, post. repeat split; auto.
    constructor; [left; exact Hc|exact Hpre].
Qed.
End driver.

(** C2: without a filter, [transform] passes over the candidates whose
    speculative translation of [to] at the width of [exp] fails, in matcher
    order; at the first candidate whose probe succeeds it translates [to]
    for real under that candidate and returns the result at once, whatever
    candidates follow. A null result of that committing translation is not
    returned: it aborts. *)
Theorem transform_without_filter_first_probe (P : ext.t) (exp : expression)
    (from to : directive.instance) (pre post : list symbol_table_t) (m : symbol_table_t) :
  ext.fast_match P from exp = (true, pre ++ m :: post) ->
  Forall (fun c => translate P c to (ext.size P exp) true = Returns None) pre ->
  succeeds (translate P m to (ext.size P exp) true) = true ->
  transform P exp from to None
  = match translate P m to (ext.size P exp) false with
    | Returns (Some exp_new) => Returns (Some exp_new)
    | Returns None => Aborts
    | Aborts => Aborts
    end.
Proof.
  intros Hmatch Hpre Hprobe. unfold transform. rewrite Hmatch. simpl.
  rewrite transform_unfiltered_app by exact Hpre. simpl.
  destruct (translate P m to (ext.size P exp) true) as [[d|]|]; try discriminate.
  simpl. destruct (translate P m to (ext.size P exp) false) as [[e|]|]; reflexivity.
Qed.

(** C3: with a filter, [transform] returns the committing translation of
    [to], at the width of [exp], under the first candidate in matcher order
    whose translation succeeds and is accepted by the filter, the
    candidates before it having failed to translate or been rejected; every
    value it returns arises this way; and when the matcher reports no match
    or every candidate fails to translate or is rejected, it returns the
    null reference and does not abort. *)
Theorem transform_with_filter_first_accept (P : ext.t) (exp : expression)
    (from to : directive.instance) (filter : expression -> bool) :
  (forall pre m post e,
      ext.fast_match P from exp = (true, pre ++ m :: post) ->
      Forall (skipped P to (ext.size P exp) filter) pre ->
      translate P m to (ext.size P exp) false = Returns (Some e) ->
      filter e = true ->
      transform P exp from to (Some filter) = Returns (Some e)) /\
  (forall e,
      transform P exp from to (Some filter) = Returns (Some e) ->
      exists pre m post,
        ext.fast_match P from exp = (true, pre ++ m :: post) /\
        Forall (skipped P to (ext.size P exp) filter) pre /\
        translate P m to (ext.size P exp) false = Returns (Some e) /\
        filter e = true) /\
  (forall matched results,
      ext.fast_match P from exp = (matched, results) ->
      matched = false \/ Forall (skipped P to (ext.size P exp) filter) results ->
      transform P exp from to (Some filter) = Returns None).
Proof.
  unfold transform. repeat split.
  - intros pre m post e -> Hpre Hm Hacc. simpl.
    rewrite transform_filtered_app by exact Hpre. simpl.
    rewrite Hm. simpl. rewrite Hacc. reflexivity.
  - intros e. destruct (ext.fast_match P from exp) as [matched results].
    destruct matched; simpl; [|discriminate].
    intros Hret. apply transform_filtered_value in Hret.
    destruct Hret as (pre & m & post & -> & Hrest). eauto.
  - intros matched results -> [-> | Hall]; [reflexivity|].
    destruct matched; simpl; [|reflexivity].
    rewrite <- (app_nil_r results).
    rewrite transform_filtered_app by exact Hall. reflexivity.
Qed.

(** ** The dummy expression stays out of committed results *)

Section no_dummy.
Variable P : ext.t.
Hypothesis Hext : keeps_dummy_out P.

(** The committing translation only returns bindings of the symbol table,
    fresh constants, fresh operator nodes over its own results, and what
    [resize] and the simplifier hand back. *)
Lemma translate_committing_no_dummy (sym : symbol_table_t) (bit_cnt : bitcnt_t) :
  dummy_free sym ->
  forall dir e,
    translate P sym dir bit_cnt false = Returns (Some e) ->
    contains_dummy e = false.
Proof.
  destruct Hext as [Hresize Hsimp]. intros Hsym.
  induction dir as [op id value dir_lhs dir_rhs IHl IHr] using instance_ind'.
  intros e.
  destruct dir_lhs as [l|], dir_rhs as [r|];
    try specialize (IHl _ eq_refl); try specialize (IHr _ eq_refl).
  all: try (destruct (translate P sym l bit_cnt false) as [[el|]|] eqn:Hl;
            [specialize (IHl el eq_refl)|clear IHl|clear IHl]).
  all: try (destruct (translate P sym r bit_cnt false) as [[er|]|] eqn:Hr;
            [specialize (IHr er eq_refl)|clear IHr|clear IHr]).
  all: destruct op as [| | |code|[]]; simpl; try discriminate.
  all: repeat match goal with H : translate _ _ _ _ _ = _ |- _ => rewrite H end.
  all: unfold mbind, outcome_bind, sym_translate, optional_value; simpl; try discriminate.
  all: repeat match goal with
       | |- context [match ?x with _ => _ end] => destruct x eqn:?; simpl
       end.
  all: try discriminate.
  all: intros [= <-]; simpl; eauto.
  all: rewrite ?IHl, ?IHr; reflexivity.
Qed.

(** The filtered loop returns committing translations only. *)
Lemma transform_filtered_no_dummy (filter : expression -> bool) (to : directive.instance)
    (bit_cnt : bitcnt_t) (results : list symbol_table_t) (e : expression) :
  Forall dummy_free results ->
  transform_filtered P filter to bit_cnt results = Returns (Some e) ->
  contains_dummy e = false.
Proof.
  induction 1 as [|c results Hc _ IH]; simpl; [discriminate|].
  destruct (translate P c to bit_cnt false) as [[e'|]|] eqn:Hcommit; simpl;
    [|exact IH|discriminate].
  destruct (filter e'); [|exact IH].
  intros [= <-]. eapply translate_committing_no_dummy; eauto.
Qed.

(** The unfiltered loop discards the probe and returns the committing
    translation. *)
Lemma transform_unfiltered_no_dummy (to : directive.instance)
    (bit_cnt : bitcnt_t) (results : list symbol_table_t) (e : expression) :
  Forall dummy_free results ->
  transform_unfiltered P to bit_cnt results = Returns (Some e) ->
  contains_dummy e = false.
Proof.
  induction 1 as [|c results Hc _ IH]; simpl; [discriminate|].
  destruct (translate P c to bit_cnt true) as [[d|]|]; simpl; [|exact IH|discriminate].
  destruct (translate P c to bit_cnt false) as [[e'|]|] eqn:Hcommit; simpl; try discriminate.
  intros [= <-]. eapply translate_committing_no_dummy; eauto.
Qed.
End no_dummy.

(** C9 (as stated, refuted): the committing translation hands back what
    the symbol table binds. Applied to an expression that is the 1-bit
    variable ["@dummmy"], the rule [x => x] makes [transform] return that
    very expression, and so does [translate] with the speculative flag
    false under a table that binds [x] to it. *)
Lemma transform_returns_bound_dummy :
  transform examples.plain dummy_expression (dir_var "x") (dir_var "x") None
  = Returns (Some dummy_expression) /\
  translate examples.plain {[ "x"%string := dummy_expression ]} (dir_var "x") 1 false
  = Returns (Some dummy_expression).
Proof.
  split; vm_compute; reflexivity.
Qed.

(** C9 (amended): the committing translation never introduces the dummy.
    Provided [resize] and the simplifier keep an expression free of the
    dummy: if no expression bound in the symbol table contains the dummy,
    no result of [translate] with the speculative flag false contains it;
    and if no candidate table of the matcher binds an expression that
    contains it, no result of [transform] contains it, with or without a
    filter. *)
Theorem committed_result_has_no_dummy (P : ext.t) :
  keeps_dummy_out P ->
  (forall sym dir bit_cnt e,
      dummy_free sym ->
      translate P sym dir bit_cnt false = Returns (Some e) ->
      contains_dummy e = false) /\
  (forall exp from to filter e,
      Forall dummy_free (ext.fast_match P from exp).2 ->
      transform P exp from to filter = Returns (Some e) ->
      contains_dummy e = false).
Proof.
  intros Hext. split.
  - intros sym dir bit_cnt e Hsym. apply translate_committing_no_dummy; assumption.
  - intros exp from to filter e. unfold transform.
    destruct (ext.fast_match P from exp) as [matched results]. simpl.
    intros Hall. destruct matched; simpl; [|discriminate].
    destruct filter as [f|].
    + apply transform_filtered_no_dummy; assumption.
    + apply transform_unfiltered_no_dummy; assumption.
Qed.

(** The instance of the examples keeps the dummy out. *)
Lemma plain_keeps_dummy_out : keeps_dummy_out examples.plain.
Proof.
  split.
  - intros e new_size signed_cast He. destruct e; simpl in *; auto.
    all: rewrite He; destruct signed_cast; reflexivity.
  - intros e He. exact He.
Qed.

Lemma dummy_free_singleton (name : string) (e : expression) :
  contains_dummy e = false -> dummy_free {[ name := e ]}.
Proof.
  intros He k b Hk. apply lookup_singleton_Some in Hk as [_ <-]. exact He.
Qed.

Lemma committed_result_has_no_dummy_witness :
  keeps_dummy_out examples.plain /\
  transform examples.plain (variable "a" 64) (dir_var "x") (dir_var "x") None
  = Returns (Some (variable "a" 64)) /\
  contains_dummy (variable "a" 64) = false.
Proof.
  split; [exact plain_keeps_dummy_out|].
  split; [vm_compute; reflexivity|].
  apply (proj2 (committed_result_has_no_dummy examples.plain plain_keeps_dummy_out)
           (variable "a" 64) (dir_var "x") (dir_var "x") None).
  - simpl. constructor; [|constructor]. apply dummy_free_singleton. reflexivity.
  - vm_compute. reflexivity.
Defined.

(** ** The theorems at work on the example rules *)

Lemma transform_without_filter_first_probe_witness :
  ext.fast_match examples.three_candidates (dir_var "p") (variable "e" 64)
  = (true, [examples.c_false] ++ examples.c_true_const :: [examples.c_true]) /\
  transform examples.three_candidates (variable "e" 64) (dir_var "p") examples.guarded_x None
  = Returns (Some (constant 5 64)).
Proof.
  split; [reflexivity|].
  rewrite (transform_without_filter_first_probe examples.three_candidates
             (variable "e" 64) (dir_var "p") examples.guarded_x
             [examples.c_false] [examples.c_true] examples.c_true_const).
  - vm_compute. reflexivity.
  - reflexivity.
  - constructor; [vm_compute; reflexivity|constructor].
  - vm_compute. reflexivity.
Defined.

Lemma transform_with_filter_first_accept_witness :
  transform examples.three_candidates (variable "e" 64) (dir_var "p") examples.guarded_x
    (Some examples.only_variables)
  = Returns (Some (variable "a" 64)) /\
  transform examples.two_candidates (variable "e" 64) (dir_var "p") examples.guarded_x
    (Some examples.only_variables)
  = Returns None.
Proof.
  split.
  - apply (proj1 (transform_with_filter_first_accept examples.three_candidates
                    (variable "e" 64) (dir_var "p") examples.guarded_x
                    examples.only_variables)
             [examples.c_false; examples.c_true_const] examples.c_true []).
    + reflexivity.
    + constructor; [left; vm_compute; reflexivity|].
      constructor; [right; exists (constant 5 64); split; vm_compute; reflexivity|].
      constructor.
    + vm_compute. reflexivity.
    + reflexivity.
  - apply (proj2 (proj2 (transform_with_filter_first_accept examples.two_candidates
                    (variable "e" 64) (dir_var "p") examples.guarded_x
                    examples.only_variables))
             true [examples.c_false; examples.c_true_const]).
    + reflexivity.
    + right.
      constructor; [left; vm_compute; reflexivity|].
      constructor; [right; exists (constant 5 64); split; vm_compute; reflexivity|].
      constructor.
Defined.

Lemma translate_iff_witness :
  translate examples.plain examples.c_false
    (dir_meta directive_op_desc.iff (Some examples.guarded_x) (Some (dir_var "y"))) 64 true
  = Returns None /\
  translate examples.plain examples.c_false examples.guarded_x 64 false = Returns None /\
  translate examples.plain examples.c_symbolic examples.guarded_x 64 false = Returns None /\
  translate examples.plain examples.c_true examples.guarded_x 64 true
  = translate examples.plain examples.c_true (dir_var "x") 64 true.
Proof.
  split; [|split; [|split]].
  - apply (proj1 (translate_iff examples.plain examples.c_false 64 None None
                    examples.guarded_x (dir_var "y") true)).
    vm_compute. reflexivity.
  - apply (proj1 (proj2 (translate_iff examples.plain examples.c_false 64 None None
                           (dir_var "c") (dir_var "x") false)) (constant 0 1)).
    + vm_compute. reflexivity.
    + right. reflexivity.
  - apply (proj1 (proj2 (translate_iff examples.plain examples.c_symbolic 64 None None
                           (dir_var "c") (dir_var "x") false)) (variable "flag" 1)).
    + vm_compute. reflexivity.
    + left. reflexivity.
  - apply (proj2 (proj2 (translate_iff examples.plain examples.c_true 64 None None
                           (dir_var "c") (dir_var "x") true)) (constant 1 1) 1).
    + vm_compute. reflexivity.
    + reflexivity.
    + lia.
Defined.

Lemma translate_or_also_witness :
  translate examples.plain examples.c_true examples.guarded_x_or_y 64 false
  = Returns (Some (variable "a" 64)) /\
  translate examples.plain examples.c_false examples.guarded_x_or_y 64 false
  = Returns (Some (variable "b" 64)) /\
  translate examples.plain examples.c_false
    (dir_meta directive_op_desc.or_also (Some examples.guarded_x) (Some examples.guarded_x))
    64 false
  = Returns None.
Proof.
  split; [|split].
  - apply (proj1 (translate_or_also examples.plain examples.c_true 64 None None
                    examples.guarded_x (dir_var "y") false)).
    vm_compute. reflexivity.
  - apply (proj1 (proj2 (translate_or_also examples.plain examples.c_false 64 None None
                           examples.guarded_x (dir_var "y") false))).
    + vm_compute. reflexivity.
    + vm_compute. reflexivity.
  - apply (proj2 (proj2 (translate_or_also examples.plain examples.c_false 64 None None
                           examples.guarded_x examples.guarded_x false))).
    + vm_compute. reflexivity.
    + vm_compute. reflexivity.
Defined.

Lemma translate_simplify_witness :
  translate examples.complementing examples.c_true examples.simplify_double_complement 64 true
  = Returns (Some (variable "a" 64)) /\
  translate examples.complementing examples.c_false
    (dir_meta directive_op_desc.simplify None (Some examples.guarded_x)) 64 true
  = Returns None /\
  translate examples.complementing examples.c_true
    (dir_meta directive_op_desc.simplify None (Some (dir_var "x"))) 64 true
  = Returns None.
Proof.
  split; [|split].
  - apply (proj1 (proj2 (translate_simplify examples.complementing examples.c_true 64
                           None None None
                           (dir_op model.bitwise_not None
                              (Some (dir_op model.bitwise_not None (Some (dir_var "x")))))
                           true))
             (make_unary model.bitwise_not (make_unary model.bitwise_not (variable "a" 64)))).
    + vm_compute. reflexivity.
    + reflexivity.
    + reflexivity.
  - apply (proj1 (proj2 (proj2 (translate_simplify examples.complementing examples.c_false 64
                                  None None None examples.guarded_x true)))).
    vm_compute. reflexivity.
  - apply (proj2 (proj2 (proj2 (translate_simplify examples.complementing examples.c_true 64
                                  None None None (dir_var "x") true)))
             (variable "a" 64)).
    + vm_compute. reflexivity.
    + right. reflexivity.
Defined.

Lemma translate_masks_witness :
  translate examples.plain examples.c_true_const (dir_var "x") 8 false
  = Returns (Some (constant 5 64)) /\
  translate examples.plain examples.c_true_const
    (dir_meta directive_op_desc.mask_unknown None (Some (dir_var "x"))) 8 false
  = Returns (Some (constant 0 64)) /\
  translate examples.plain examples.c_true_const
    (dir_meta directive_op_desc.mask_one None (Some (dir_var "x"))) 8 false
  = Returns (Some (constant 5 64)).
Proof.
  assert (Hx : translate examples.plain examples.c_true_const (dir_var "x") 8 false
               = Returns (Some (constant 5 64))) by (vm_compute; reflexivity).
  pose proof (translate_masks examples.plain examples.c_true_const 8 None None None
                (dir_var "x") (constant 5 64) Hx) as (_ & Hone & _ & Hzero).
  split; [|split].
  - exact Hx.
  - apply Hzero. reflexivity.
  - exact Hone.
Defined.

Lemma translate_fatal_cases_witness :
  translate examples.plain examples.symbolic_width examples.cast_x_w 64 false = Aborts /\
  translate examples.plain examples.c_true (dir_var "z") 64 false = Aborts.
Proof.
  split.
  - apply (proj1 (proj2 (translate_fatal_cases examples.plain examples.symbolic_width 64))
             operator_id.cast None None (dir_var "x") (dir_var "w")
             (variable "a" 64) (variable "b" 64)).
    + reflexivity.
    + vm_compute. reflexivity.
    + vm_compute. reflexivity.
    + reflexivity.
  - apply (proj1 (proj2 (proj2 (translate_fatal_cases examples.plain examples.c_true 64)))
             "z"%string None None None false).
    vm_compute. reflexivity.
Defined.

(** * Further properties of the translator and the driver *)

(** ** The probe and the assertion of [transform] *)

(** X1: after a successful speculative translation the committing
    translation of the same directive under the same table and width never
    returns the null reference, so the [fassert] of [transform] cannot
    fail. *)
Theorem probe_success_excludes_null (P : ext.t) (sym : symbol_table_t)
    (dir : directive.instance) (bit_cnt : bitcnt_t) :
  succeeds (translate P sym dir bit_cnt true) = true ->
  translate P sym dir bit_cnt false <> Returns None.
Proof.
  apply probe_excludes_null.
Qed.

Lemma probe_success_excludes_null_witness :
  succeeds (translate examples.plain examples.c_true examples.guarded_x 64 true) = true /\
  translate examples.plain examples.c_true examples.guarded_x 64 false <> Returns None.
Proof.
  split; [vm_compute; reflexivity|].
  apply probe_success_excludes_null. vm_compute. reflexivity.
Defined.

(** X2: a probe never aborts on a directive whose committing translation
    returns: every abort of the speculative mode is also an abort of the
    committing mode. *)
Theorem probe_abort_is_commit_abort (P : ext.t) (sym : symbol_table_t)
    (dir : directive.instance) (bit_cnt : bitcnt_t) :
  translate P sym dir bit_cnt true = Aborts ->
  translate P sym dir bit_cnt false = Aborts.
Proof.
  intros Hprobe.
  destruct (translate P sym dir bit_cnt false) as [r|] eqn:Hcommit; [|reflexivity].
  destruct (translate_modes P sym bit_cnt dir) as [Hret _].
  - rewrite Hcommit. discriminate.
  - contradiction.
Qed.

Lemma probe_abort_is_commit_abort_witness :
  translate examples.plain examples.c_true (dir_var "z") 64 true = Aborts /\
  translate examples.plain examples.c_true (dir_var "z") 64 false = Aborts.
Proof.
  split; [vm_compute; reflexivity|].
  apply probe_abort_is_commit_abort. vm_compute. reflexivity.
Defined.

Section unfiltered_loop.
Variable P : ext.t.
Variable to : directive.instance.
Variable bit_cnt : bitcnt_t.

(** A value returned by the unfiltered loop is the committing translation
    under a candidate whose probe succeeded, all earlier probes having
    returned null. *)
Lemma transform_unfiltered_value (results : list symbol_table_t) (e : expression) :
  transform_unfiltered P to bit_cnt results = Returns (Some e) ->
  exists pre m post,
    results = pre ++ m :: post /\
    Forall (fun c => translate P c to bit_cnt true = Returns None) pre /\
    succeeds (translate P m to bit_cnt true) = true /\
    translate P m to bit_cnt false = Returns (Some e).
Proof.
  induction results as [|c results IH]; simpl; [discriminate|].
  destruct (translate P c to bit_cnt true) as [[d|]|] eqn:Hprobe; simpl; [| |discriminate].
  - destruct (translate P c to bit_cnt false) as [[e'|]|] eqn:Hc; simpl; try discriminate.
    intros [= <-]. exists [], c, results. rewrite Hprobe. repeat split; auto.
  - intros Hrest. destruct (IH Hrest) as (pre & m & post & -> & Hpre & Hm & Hcommit).
    exists (c :: pre), m, post. repeat split; auto.
Qed.

(** The unfiltered loop returns null exactly when every probe did. *)
Lemma transform_unfiltered_null (results : list symbol_table_t) :
  transform_unfiltered P to bit_cnt results = Returns None <->
  Forall (fun c => translate P c to bit_cnt true = Returns None) results.
Proof.
  split.
  - induction results as [|c results IH]; simpl; [constructor|].
    destruct (translate P c to bit_cnt true) as [[d|]|] eqn:Hprobe; simpl; [| |discriminate].
    + destruct (translate P c to bit_cnt false) as [[e'|]|]; discriminate.
    + intros Hrest. constructor; auto.
  - intros Hall. rewrite <- (app_nil_r results).
    rewrite transform_unfiltered_app by exact Hall. reflexivity.
Qed.

(** The unfiltered loop aborts only where a translation aborts. *)
Lemma transform_unfiltered_abort (results : list symbol_table_t) :
  transform_unfiltered P to bit_cnt results = Aborts ->
  Exists (fun c => translate P c to bit_cnt true = Aborts \/
                   translate P c to bit_cnt false = Aborts) results.
Proof.
  induction results as [|c results IH]; simpl; [discriminate|].
  destruct (translate P c to bit_cnt true) as [[d|]|] eqn:Hprobe; simpl.
  - destruct (translate P c to bit_cnt false) as [[e'|]|] eqn:Hc; simpl; try discriminate.
    + intros _. exfalso. apply (probe_excludes_null P c bit_cnt to); [|exact Hc].
      rewrite Hprobe. reflexivity.
    + intros _. constructor. right. exact Hc.
  - intros Hrest. apply Exists_cons_tl. auto.
  - intros _. constructor. left. exact Hprobe.
Qed.

(** With a filter that accepts everything, the filtered loop and the
    unfiltered loop agree as long as no committing translation aborts. *)
Lemma transform_filtered_accept_all (results : list symbol_table_t) :
  Forall (fun c => translate P c to bit_cnt false <> Aborts) results ->
  transform_filtered P (fun _ => true) to bit_cnt results
  = transform_unfiltered P to bit_cnt results.
Proof.
  induction 1 as [|c results Hc _ IH]; simpl; [reflexivity|].
  destruct (translate_modes P c bit_cnt to Hc) as [Hret Hsame].
  destruct (translate P c to bit_cnt false) as [[e|]|];
    destruct (translate P c to bit_cnt true) as [[d|]|];
    simpl in *; try discriminate; try contradiction; auto.
Qed.
End unfiltered_loop.

(** X3: every value [transform] returns without a filter is the committing
    translation of [to], at the width of [exp], under a candidate of the
    matcher whose probe succeeded, the probes of all earlier candidates
    having returned null. *)
Theorem transform_without_filter_value (P : ext.t) (exp : expression)
    (from to : directive.instance) (e : expression) :
  transform P exp from to None = Returns (Some e) ->
  exists pre m post,
    ext.fast_match P from exp = (true, pre ++ m :: post) /\
    Forall (fun c => translate P c to (ext.size P exp) true = Returns None) pre /\
    succeeds (translate P m to (ext.size P exp) true) = true /\
    translate P m to (ext.size P exp) false = Returns (Some e).
Proof.
  unfold transform. destruct (ext.fast_match P from exp) as [matched results].
  destruct matched; simpl; [|discriminate].
  intros Hret. apply transform_unfiltered_value in Hret.
  destruct Hret as (pre & m & post & -> & Hrest). eauto.
Qed.

Lemma transform_without_filter_value_witness :
  transform examples.three_candidates (variable "e" 64) (dir_var "p") examples.guarded_x None
  = Returns (Some (constant 5 64)) /\
  exists pre m post,
    ext.fast_match examples.three_candidates (dir_var "p") (variable "e" 64)
    = (true, pre ++ m :: post) /\
    Forall (fun c => translate examples.three_candidates c examples.guarded_x
                       (ext.size examples.three_candidates (variable "e" 64)) true
                     = Returns None) pre /\
    succeeds (translate examples.three_candidates m examples.guarded_x
                (ext.size examples.three_candidates (variable "e" 64)) true) = true /\
    translate examples.three_candidates m examples.guarded_x
      (ext.size examples.three_candidates (variable "e" 64)) false
    = Returns (Some (constant 5 64)).
Proof.
  split; [vm_compute; reflexivity|].
  apply transform_without_filter_value. vm_compute. reflexivity.
Defined.

(** X4: without a filter, [transform] returns the null reference exactly
    when the matcher reports no match or the probe of every candidate
    returns null. *)
Theorem transform_without_filter_null (P : ext.t) (exp : expression)
    (from to : directive.instance) :
  transform P exp from to None = Returns None <->
  (ext.fast_match P from exp).1 = false \/
  Forall (fun c => translate P c to (ext.size P exp) true = Returns None)
    (ext.fast_match P from exp).2.
Proof.
  unfold transform. destruct (ext.fast_match P from exp) as [matched results].
  destruct matched; simpl.
  - rewrite transform_unfiltered_null. split; [auto|intros [?|?]; [discriminate|auto]].
  - split; auto.
Qed.

(** X5: without a filter, [transform] aborts only if the speculative or the
    committing translation of [to] aborts under some candidate; the
    assertion on the committed result is never the cause. *)
Theorem transform_without_filter_abort (P : ext.t) (exp : expression)
    (from to : directive.instance) :
  transform P exp from to None = Aborts ->
  Exists (fun c => translate P c to (ext.size P exp) true = Aborts \/
                   translate P c to (ext.size P exp) false = Aborts)
    (ext.fast_match P from exp).2.
Proof.
  unfold transform. destruct (ext.fast_match P from exp) as [matched results].
  destruct matched; simpl; [|discriminate].
  apply transform_unfiltered_abort.
Qed.

(** X6: a filter that accepts every expression behaves as no filter: when
    no candidate makes the committing translation abort, both calls of
    [transform] return the same result. *)
Theorem transform_accept_all_is_unfiltered (P : ext.t) (exp : expression)
    (from to : directive.instance) :
  Forall (fun c => translate P c to (ext.size P exp) false <> Aborts)
    (ext.fast_match P from exp).2 ->
  transform P exp from to (Some (fun _ => true)) = transform P exp from to None.
Proof.
  unfold transform. destruct (ext.fast_match P from exp) as [matched results].
  simpl. intros Hall. destruct matched; simpl; [|reflexivity].
  apply transform_filtered_accept_all. exact Hall.
Qed.

Lemma transform_without_filter_null_witness :
  Forall (fun c => translate examples.two_candidates c
                     (dir_meta directive_op_desc.iff (Some (dir_const 0)) (Some (dir_var "x")))
                     (ext.size examples.two_candidates (variable "e" 64)) true
                   = Returns None)
    (ext.fast_match examples.two_candidates (dir_var "p") (variable "e" 64)).2 /\
  transform examples.two_candidates (variable "e" 64) (dir_var "p")
    (dir_meta directive_op_desc.iff (Some (dir_const 0)) (Some (dir_var "x"))) None
  = Returns None.
Proof.
  assert (Hall : Forall (fun c => translate examples.two_candidates c
                     (dir_meta directive_op_desc.iff (Some (dir_const 0)) (Some (dir_var "x")))
                     (ext.size examples.two_candidates (variable "e" 64)) true
                   = Returns None)
    (ext.fast_match examples.two_candidates (dir_var "p") (variable "e" 64)).2).
  { simpl. constructor; [vm_compute; reflexivity|].
    constructor; [vm_compute; reflexivity|constructor]. }
  split; [exact Hall|].
  apply (proj2 (transform_without_filter_null examples.two_candidates (variable "e" 64)
                  (dir_var "p")
                  (dir_meta directive_op_desc.iff (Some (dir_const 0)) (Some (dir_var "x"))))).
  right. exact Hall.
Defined.

Lemma transform_without_filter_abort_witness :
  transform examples.plain (variable "a" 64) (dir_var "x") (dir_var "z") None = Aborts /\
  Exists (fun c => translate examples.plain c (dir_var "z")
                     (ext.size examples.plain (variable "a" 64)) true = Aborts \/
                   translate examples.plain c (dir_var "z")
                     (ext.size examples.plain (variable "a" 64)) false = Aborts)
    (ext.fast_match examples.plain (dir_var "x") (variable "a" 64)).2.
Proof.
  split; [vm_compute; reflexivity|].
  apply transform_without_filter_abort. vm_compute. reflexivity.
Defined.

Lemma transform_accept_all_is_unfiltered_witness :
  Forall (fun c => translate examples.three_candidates c examples.guarded_x
                     (ext.size examples.three_candidates (variable "e" 64)) false <> Aborts)
    (ext.fast_match examples.three_candidates (dir_var "p") (variable "e" 64)).2 /\
  transform examples.three_candidates (variable "e" 64) (dir_var "p") examples.guarded_x
    (Some (fun _ => true))
  = transform examples.three_candidates (variable "e" 64) (dir_var "p") examples.guarded_x None.
Proof.
  assert (Hall : Forall (fun c => translate examples.three_candidates c examples.guarded_x
                     (ext.size examples.three_candidates (variable "e" 64)) false <> Aborts)
    (ext.fast_match examples.three_candidates (dir_var "p") (variable "e" 64)).2).
  { simpl. repeat (constructor; [vm_compute; discriminate|]). constructor. }
  split; [exact Hall|].
  apply transform_accept_all_is_unfiltered. exact Hall.
Defined.

(** ** What a translation depends on *)

Section frame.
Variable P : ext.t.
Variable bit_cnt : bitcnt_t.

(** X7: bindings can be added to a symbol table without changing a
    translation that returned, in either mode. *)
Theorem translate_weaken (sym sym' : symbol_table_t) (dir : directive.instance) :
  sym ⊆ sym' ->
  forall speculative_condition,
    translate P sym dir bit_cnt speculative_condition <> Aborts ->
    translate P sym' dir bit_cnt speculative_condition
    = translate P sym dir bit_cnt speculative_condition.
Proof.
  intros Hsub.
  induction dir as [op id value dir_lhs dir_rhs IHl IHr] using instance_ind'.
  intros sc.
  destruct dir_lhs as [l|], dir_rhs as [r|];
    try specialize (IHl _ eq_refl); try specialize (IHr _ eq_refl).
  all: destruct op as [| | |code|[]], sc; simpl; try reflexivity.
  all: unfold mbind, outcome_bind, sym_translate, optional_value; simpl.
  all: try (destruct id as [name|]; [|reflexivity];
            destruct (sym !! name) as [e|] eqn:Hname;
            [rewrite (lookup_weaken _ _ _ _ Hname Hsub); reflexivity
            |intros Hc; now contradict Hc]).
  all: repeat step_weaken P sym bit_cnt.
  all: repeat match goal with
       | |- context [match ?x with _ => _ end] => destruct x eqn:?; simpl
       end.
  all: try reflexivity.
  all: try (intros Hc; now contradict Hc).
  all: repeat step_weaken P sym bit_cnt; try reflexivity; try (intros Hc; now contradict Hc).
Qed.
End frame.

Lemma translate_weaken_witness :
  translate examples.plain (<[ "z"%string := constant 7 8 ]> examples.c_true)
    examples.guarded_x_or_y 64 false
  = translate examples.plain examples.c_true examples.guarded_x_or_y 64 false.
Proof.
  apply translate_weaken.
  - apply insert_subseteq. vm_compute. reflexivity.
  - vm_compute. discriminate.
Defined.

Section reads.
Variable P : ext.t.

(** X8: a translation reads the symbol table only at the variables of the
    directive: two tables that agree on them give the same outcome, in
    either mode, aborts included. *)
Theorem translate_agree_on_variables (sym sym' : symbol_table_t)
    (bit_cnt : bitcnt_t) (dir : directive.instance) :
  (forall name, name ∈ variables dir -> sym !! name = sym' !! name) ->
  forall speculative_condition,
    translate P sym dir bit_cnt speculative_condition
    = translate P sym' dir bit_cnt speculative_condition.
Proof.
  induction dir as [op id value dir_lhs dir_rhs IHl IHr] using instance_ind'.
  intros Hagree sc.
  assert (Hl : forall l, dir_lhs = Some l -> op <> operator_id.invalid ->
               forall sc, translate P sym l bit_cnt sc = translate P sym' l bit_cnt sc).
  { intros l -> Hop. apply (IHl l eq_refl). intros name Hname. apply Hagree.
    destruct op; try congruence; simpl; set_solver. }
  assert (Hr : forall r, dir_rhs = Some r -> op <> operator_id.invalid ->
               forall sc, translate P sym r bit_cnt sc = translate P sym' r bit_cnt sc).
  { intros r -> Hop. apply (IHr r eq_refl). intros name Hname. apply Hagree.
    destruct op; try congruence; simpl; set_solver. }
  clear IHl IHr.
  destruct dir_lhs as [l|], dir_rhs as [r|];
    try specialize (Hl _ eq_refl); try specialize (Hr _ eq_refl).
  all: destruct op as [| | |code|[]]; simpl.
  all: try (destruct id as [name|]; [|reflexivity]; unfold sym_translate;
            rewrite (Hagree name) by (simpl; set_solver); reflexivity).
  all: try rewrite !Hl by discriminate; try rewrite !Hr by discriminate.
  all: reflexivity.
Qed.

(** X9: the requested width is read only at literal leaves: when the
    directive has none, the translation is the same at every width. *)
Theorem translate_width_irrelevant (sym : symbol_table_t)
    (bit_cnt bit_cnt' : bitcnt_t) (dir : directive.instance) :
  literal_free dir = true ->
  forall speculative_condition,
    translate P sym dir bit_cnt speculative_condition
    = translate P sym dir bit_cnt' speculative_condition.
Proof.
  induction dir as [op id value dir_lhs dir_rhs IHl IHr] using instance_ind'.
  intros Hfree sc.
  assert (Hl : forall l, dir_lhs = Some l -> op <> operator_id.invalid ->
               forall sc, translate P sym l bit_cnt sc = translate P sym l bit_cnt' sc).
  { intros l -> Hop. apply (IHl l eq_refl).
    destruct op; try congruence; simpl in Hfree; apply andb_true_iff in Hfree; tauto. }
  assert (Hr : forall r, dir_rhs = Some r -> op <> operator_id.invalid ->
               forall sc, translate P sym r bit_cnt sc = translate P sym r bit_cnt' sc).
  { intros r -> Hop. apply (IHr r eq_refl).
    destruct op; try congruence; simpl in Hfree; apply andb_true_iff in Hfree; tauto. }
  clear IHl IHr.
  destruct dir_lhs as [l|], dir_rhs as [r|];
    try specialize (Hl _ eq_refl); try specialize (Hr _ eq_refl).
  all: destruct op as [| | |code|[]]; simpl.
  all: try (destruct id as [name|]; [reflexivity|discriminate]).
  all: try rewrite !Hl by discriminate; try rewrite !Hr by discriminate.
  all: reflexivity.
Qed.

(** X10: a template made of variables, literals and arithmetic operators
    other than the casts never fails recoverably. Its committing
    translation returns its substitution instance when that is defined and
    aborts otherwise, whatever the expression primitives; its speculative
    translation succeeds in exactly the same cases. *)
Theorem translate_arithmetic_template (sym : symbol_table_t)
    (bit_cnt : bitcnt_t) (dir : directive.instance) :
  arithmetic_only dir = true ->
  translate P sym dir bit_cnt false
  = match instantiate sym bit_cnt dir with
    | Some e => Returns (Some e)
    | None => Aborts
    end /\
  (translate P sym dir bit_cnt true = Aborts <-> instantiate sym bit_cnt dir = None) /\
  translate P sym dir bit_cnt true <> Returns None.
Proof.
  induction dir as [op id value dir_lhs dir_rhs IHl IHr] using instance_ind'.
  intros Hshape.
  assert (Hl : forall l, dir_lhs = Some l -> op <> operator_id.invalid ->
               arithmetic_only l = true).
  { intros l -> Hop. destruct op; try congruence; simpl in Hshape; try discriminate.
    apply andb_true_iff in Hshape. tauto. }
  assert (Hr : forall r, dir_rhs = Some r -> op <> operator_id.invalid ->
               arithmetic_only r = true).
  { intros r -> Hop. destruct op; try congruence; simpl in Hshape; try discriminate.
    apply andb_true_iff in Hshape. tauto. }
  destruct op as [| | |code|d]; try discriminate.
  - simpl. unfold sym_translate, optional_value.
    destruct id as [name|]; [destruct (sym !! name)|destruct value]; simpl;
      repeat split; congruence.
  - destruct dir_lhs as [l|], dir_rhs as [r|];
      try (destruct (IHl _ eq_refl (Hl _ eq_refl ltac:(discriminate))) as (Hlc & Hls & Hln));
      try (destruct (IHr _ eq_refl (Hr _ eq_refl ltac:(discriminate))) as (Hrc & Hrs & Hrn));
      clear IHl IHr Hl Hr; simpl.
    all: try rewrite Hlc; try rewrite Hrc.
    all: try destruct (instantiate sym bit_cnt l) as [el|];
         try destruct (instantiate sym bit_cnt r) as [er|]; simpl.
    all: try destruct (translate P sym l bit_cnt true) as [[?|]|];
         try destruct (translate P sym r bit_cnt true) as [[?|]|]; simpl.
    all: repeat split; try congruence; try tauto.
    all: intuition congruence.
Qed.

(** X11: alternation is associative: [__or( __or( a, b ), c )] and
    [__or( a, __or( b, c ) )] have the same translation, in either mode,
    aborts included. *)
Theorem translate_or_assoc (sym : symbol_table_t) (bit_cnt : bitcnt_t)
    (a b c : directive.instance) (speculative_condition : bool) :
  translate P sym (dir_or (dir_or a b) c) bit_cnt speculative_condition
  = translate P sym (dir_or a (dir_or b c)) bit_cnt speculative_condition.
Proof.
  simpl.
  destruct (translate P sym a bit_cnt speculative_condition) as [[?|]|]; simpl;
    try reflexivity.
  destruct (translate P sym b bit_cnt speculative_condition) as [[?|]|]; simpl;
    try reflexivity.
  destruct (translate P sym c bit_cnt speculative_condition) as [[?|]|]; reflexivity.
Qed.
End reads.

(** X12: alternation is idempotent, and a directive that fails is neutral
    on either side of it. *)
Theorem translate_or_neutral (P : ext.t) (sym : symbol_table_t) (bit_cnt : bitcnt_t)
    (a f : directive.instance) (speculative_condition : bool) :
  translate P sym (dir_or a a) bit_cnt speculative_condition
  = translate P sym a bit_cnt speculative_condition /\
  (translate P sym f bit_cnt speculative_condition = Returns None ->
   translate P sym (dir_or f a) bit_cnt speculative_condition
   = translate P sym a bit_cnt speculative_condition /\
   translate P sym (dir_or a f) bit_cnt speculative_condition
   = translate P sym a bit_cnt speculative_condition).
Proof.
  simpl. split; [|intros ->; simpl; split].
  all: destruct (translate P sym a bit_cnt speculative_condition) as [[?|]|] eqn:Ha;
    simpl; try rewrite Ha; reflexivity.
Qed.

Lemma translate_or_neutral_witness :
  translate examples.plain examples.c_false examples.guarded_x 64 false = Returns None /\
  translate examples.plain examples.c_false
    (dir_or examples.guarded_x (dir_var "y")) 64 false
  = translate examples.plain examples.c_false (dir_var "y") 64 false.
Proof.
  split; [vm_compute; reflexivity|].
  apply (proj2 (translate_or_neutral examples.plain examples.c_false 64
                  (dir_var "y") examples.guarded_x false)).
  vm_compute. reflexivity.
Defined.

Lemma translate_agree_on_variables_witness :
  translate examples.plain (<[ "z"%string := constant 7 8 ]> examples.c_true)
    examples.guarded_x_or_y 64 true
  = translate examples.plain (<[ "z"%string := variable "q" 1 ]> examples.c_true)
      examples.guarded_x_or_y 64 true.
Proof.
  apply translate_agree_on_variables.
  intros name Hname.
  assert (Hz : "z"%string <> name).
  { intros Hz. subst name.
    unfold examples.guarded_x_or_y, examples.guarded_x in Hname. simpl in Hname.
    rewrite !elem_of_union, !elem_of_singleton in Hname.
    destruct Hname as [[Hname|Hname]|Hname]; discriminate. }
  rewrite !lookup_insert_ne by exact Hz. reflexivity.
Defined.

Lemma translate_width_irrelevant_witness :
  literal_free examples.guarded_x_or_y = true /\
  translate examples.plain examples.c_true examples.guarded_x_or_y 64 false
  = translate examples.plain examples.c_true examples.guarded_x_or_y 8 false.
Proof.
  split; [reflexivity|].
  apply translate_width_irrelevant. reflexivity.
Defined.

Lemma translate_arithmetic_template_witness :
  arithmetic_only
    (dir_op model.bitwise_not None
       (Some (dir_op (operator_id.arithmetic 2) (Some (dir_var "x")) (Some (dir_const 1)))))
  = true /\
  translate examples.plain examples.c_true
    (dir_op model.bitwise_not None
       (Some (dir_op (operator_id.arithmetic 2) (Some (dir_var "x")) (Some (dir_const 1)))))
    64 false
  = Returns (Some (make_unary model.bitwise_not
                     (make_binary (variable "a" 64) (operator_id.arithmetic 2)
                        (constant 1 64)))).
Proof.
  split; [reflexivity|].
  rewrite (proj1 (translate_arithmetic_template examples.plain examples.c_true 64
                    (dir_op model.bitwise_not None
                       (Some (dir_op (operator_id.arithmetic 2) (Some (dir_var "x"))
                                (Some (dir_const 1)))))
                    eq_refl)).
  vm_compute. reflexivity.
Defined.

(** X13: a probe builds nothing. On a directive without sequence-simplify
    and conditional nodes, the speculative translation never resizes,
    never simplifies and never reads a value: it is the same under any two
    sets of expression primitives that agree on the width and the three
    bit masks. *)
Theorem translate_probe_primitives (P P' : ext.t) (sym : symbol_table_t)
    (bit_cnt : bitcnt_t) (dir : directive.instance) :
  probe_only dir = true ->
  (forall e, ext.size P e = ext.size P' e) ->
  (forall e, ext.unknown_mask P e = ext.unknown_mask P' e) ->
  (forall e, ext.known_one P e = ext.known_one P' e) ->
  (forall e, ext.known_zero P e = ext.known_zero P' e) ->
  translate P sym dir bit_cnt true = translate P' sym dir bit_cnt true.
Proof.
  intros Hshape Hsize Hunknown Hone Hzero. revert Hshape.
  induction dir as [op id value dir_lhs dir_rhs IHl IHr] using instance_ind'.
  intros Hshape.
  assert (Hl : forall l, dir_lhs = Some l -> op <> operator_id.invalid ->
               translate P sym l bit_cnt true = translate P' sym l bit_cnt true).
  { intros l -> Hop. apply (IHl l eq_refl).
    destruct op as [| | |code|[]]; try congruence; simpl in Hshape; try discriminate;
      apply andb_true_iff in Hshape; tauto. }
  assert (Hr : forall r, dir_rhs = Some r -> op <> operator_id.invalid ->
               translate P sym r bit_cnt true = translate P' sym r bit_cnt true).
  { intros r -> Hop. apply (IHr r eq_refl).
    destruct op as [| | |code|[]]; try congruence; simpl in Hshape; try discriminate;
      apply andb_true_iff in Hshape; tauto. }
  clear IHl IHr.
  destruct dir_lhs as [l|], dir_rhs as [r|];
    try specialize (Hl _ eq_refl); try specialize (Hr _ eq_refl).
  all: destruct op as [| | |code|[]]; simpl; try discriminate; try reflexivity.
  all: try rewrite Hl by discriminate; try rewrite Hr by discriminate.
  all: try reflexivity.
  all: destruct (translate P' sym r bit_cnt true) as [[e|]|]; simpl; try reflexivity.
  all: rewrite ?Hsize, ?Hunknown, ?Hone, ?Hzero; reflexivity.
Qed.

Lemma translate_probe_primitives_witness :
  probe_only
    (dir_meta directive_op_desc.try_simplify None
       (Some (dir_op model.bitwise_not None
                (Some (dir_op model.bitwise_not None (Some (dir_var "x")))))))
  = true /\
  translate examples.plain examples.c_true
    (dir_meta directive_op_desc.try_simplify None
       (Some (dir_op model.bitwise_not None
                (Some (dir_op model.bitwise_not None (Some (dir_var "x"))))))) 64 true
  = translate examples.complementing examples.c_true
      (dir_meta directive_op_desc.try_simplify None
         (Some (dir_op model.bitwise_not None
                  (Some (dir_op model.bitwise_not None (Some (dir_var "x"))))))) 64 true.
Proof.
  split; [reflexivity|].
  apply translate_probe_primitives; reflexivity.
Defined.
